(** * anyparser_langchain: the AnyparserLoader, embedded and verified

    A shallow embedding of [src/anyparser_langchain/__init__.py].  The loader
    asks the Anyparser backend to parse one target and reshapes the outcome
    into LangChain [Document]s.  Python objects are modelled by the values
    below, exceptions by a sum type, the backend by a function of the calls
    made so far, and the coroutine [aload] by a small tree with one kind of
    suspension point (the awaited [parse]). *)

From Stdlib Require Import ZArith.
From stdpp Require Import gmap strings list fin_maps.

Set Warnings "-register-all".
Open Scope Z_scope.
Open Scope string_scope.
Open Scope list_scope.

(** ** Python values and exceptions *)

Module Py.

(** The values that end up in a metadata dict.  A nested dict literal keeps
    its insertion order. *)
Inductive PyVal : Type :=
| VNone
| VBool (b : bool)
| VInt (n : Z)
| VStr (s : string)
| VList (l : list PyVal)
| VDict (d : list (string * PyVal)).

(** An [Optional[str]] attribute, as a value. *)
Definition of_opt_str (o : option string) : PyVal :=
  match o with
  | Some s => VStr s
  | None => VNone
  end.

(** Truth value of an [Optional[str]]: [None] and [""] are falsy. *)
Definition truthy (o : option string) : bool :=
  match o with
  | None => false
  | Some EmptyString => false
  | Some (String _ _) => true
  end.

(** Truth value of an optional list: [None] and [[]] are falsy. *)
Definition truthy_list {A : Type} (o : option (list A)) : bool :=
  match o with
  | None => false
  | Some [] => false
  | Some (_ :: _) => true
  end.

(** [a or b] on two [Optional[str]] operands. *)
Definition or_ (a b : option string) : option string :=
  if truthy a then a else b.

(** [a or "lit"]: the right operand is a string literal, so the result is
    a [str] whatever [a] is. *)
Definition or_str (a : option string) (lit : string) : string :=
  match a with
  | Some s => if truthy a then s else lit
  | None => lit
  end.

(** Exceptions below [Exception].  [ValueError] is the only class the loader
    raises itself; the backend may raise any class. *)
Inductive PyExc : Type :=
| ValueError (msg : string)
| Exception (cls : string) (msg : string).

(** [str(e)] *)
Definition str (e : PyExc) : string :=
  match e with
  | ValueError msg => msg
  | Exception _ msg => msg
  end.

(** [f"{type(x)}"] for an object whose class is named [cls]. *)
Definition type_repr (cls : string) : string :=
  "<class '" +:+ cls +:+ "'>".

(** [enumerate(l, start)] *)
Fixpoint enumerate {A : Type} (l : list A) (start : Z) : list (Z * A) :=
  match l with
  | [] => []
  | x :: rest => (start, x) :: enumerate rest (start + 1)
  end.

(** [s] occurs in [msg] ([s in msg]). *)
Definition contains (msg s : string) : Prop :=
  exists pre post : string, msg = pre +:+ s +:+ post.

End Py.
Import Py.

(** ** The result classes of anyparser_core

    The package is imported, not part of the repository; the attributes are
    the ones the loader reads and the tests construct.  Attributes that are
    only copied into metadata are kept as opaque values. *)

Record AnyparserImageReference : Type := {
  display_name : PyVal;
  image_index : PyVal;
  page : PyVal
}.

Record AnyparserUrl : Type := {
  url : string;
  title : PyVal;
  status_message : PyVal;
  status_code : PyVal;
  politeness_delay : PyVal;
  url_total_characters : PyVal;
  crawled_at : PyVal;
  url_markdown : option string;
  url_text : option string;
  url_images : option (list AnyparserImageReference)
}.

Record AnyparserPdfPage : Type := {
  page_number : PyVal;
  page_markdown : option string;
  page_text : option string;
  page_images : option (list PyVal)
}.

(** The attributes of [AnyparserResultBase], shared by the PDF result. *)
Record AnyparserResultBase : Type := {
  rid : PyVal;
  original_filename : PyVal;
  checksum : PyVal;
  total_characters : PyVal;
  markdown : option string
}.

(** One item of a JSON outcome.  [isinstance] separates the three classes. *)
Inductive AnyparserResult : Type :=
| BaseResult (result : AnyparserResultBase)
| PdfResult (result : AnyparserResultBase) (items : list AnyparserPdfPage)
| CrawlResult (start_url : string) (items : list AnyparserUrl).

(** What [parse] returns: a [str], a [list] of results, or an object of some
    other class. *)
Inductive ParseOutcome : Type :=
| OStr (s : string)
| OList (items : list AnyparserResult)
| OOther (cls : string).

(** The name of the outcome's class, as [type(result)] shows it. *)
Definition outcome_class (o : ParseOutcome) : string :=
  match o with
  | OStr _ => "str"
  | OList _ => "list"
  | OOther cls => cls
  end.

(** ** Loader arguments, options and the loader object *)

(** Keyword arguments of [AnyparserLoader.__init__]. *)
Module Kw.
Record t : Type := {
  file_path : option string;
  anyparser_api_key : option string;
  anyparser_api_url : option string;
  format : string;
  model : string;
  encoding : string;
  image : option bool;
  table : option bool;
  ocr_language : option (list string);
  ocr_preset : option string;
  url : option string;
  max_depth : option Z;
  max_executions : option Z;
  strategy : option string;
  traversal_scope : option string
}.

(** The defaults of the signature, with every optional argument omitted. *)
Definition defaults : t := {|
  file_path := None;
  anyparser_api_key := None;
  anyparser_api_url := None;
  format := "markdown";
  model := "text";
  encoding := "utf-8";
  image := None;
  table := None;
  ocr_language := None;
  ocr_preset := None;
  url := None;
  max_depth := None;
  max_executions := None;
  strategy := None;
  traversal_scope := None
|}.
End Kw.

(** [AnyparserOption]: the arguments, forwarded untouched. *)
Record AnyparserOption : Type := {
  opt_api_key : option string;
  opt_api_url : option string;
  opt_format : string;
  opt_model : string;
  opt_encoding : string;
  opt_image : option bool;
  opt_table : option bool;
  opt_ocr_language : option (list string);
  opt_ocr_preset : option string;
  opt_url : option string;
  opt_max_depth : option Z;
  opt_max_executions : option Z;
  opt_strategy : option string;
  opt_traversal_scope : option string
}.

(** The attributes [__init__] sets on [self].  [parser] is the [Anyparser]
    object, which only holds its options. *)
Record AnyparserLoader : Type := {
  file_path : option string;
  format : string;
  model : string;
  options : AnyparserOption
}.

Definition parser (self : AnyparserLoader) : AnyparserOption := options self.

(** What the outside world sees of the backend: parsers built and [parse]
    calls made, oldest first. *)
Inductive Event : Type :=
| EvAnyparser (opts : AnyparserOption)
| EvParse (opts : AnyparserOption) (target : option string).

Definition World : Type := list Event.

(** [AnyparserLoader.__init__] *)
Definition init (kw : Kw.t) (w : World) : World * (PyExc + AnyparserLoader) :=
  match Kw.file_path kw, Kw.url kw with
  | None, None =>
      (w, inl (ValueError "Either file_path or url must be provided"))
  | Some _, Some _ =>
      (w, inl (ValueError "Only one of file_path or url should be provided"))
  | _, _ =>
      let opts := {|
        opt_api_key := Kw.anyparser_api_key kw;
        opt_api_url := Kw.anyparser_api_url kw;
        opt_format := Kw.format kw;
        opt_model := Kw.model kw;
        opt_encoding := Kw.encoding kw;
        opt_image := Kw.image kw;
        opt_table := Kw.table kw;
        opt_ocr_language := Kw.ocr_language kw;
        opt_ocr_preset := Kw.ocr_preset kw;
        opt_url := Kw.url kw;
        opt_max_depth := Kw.max_depth kw;
        opt_max_executions := Kw.max_executions kw;
        opt_strategy := Kw.strategy kw;
        opt_traversal_scope := Kw.traversal_scope kw
      |} in
      (w ++ [EvAnyparser opts],
       inr {|
         file_path :=
           if String.eqb (Kw.model kw) "crawler" then Kw.url kw
           else Kw.file_path kw;
         format := Kw.format kw;
         model := Kw.model kw;
         options := opts
       |})
  end.

(** ** Coroutines

    A coroutine either finishes (returning or raising) or is suspended on the
    backend's [parse]; the continuation receives what the awaited call
    returned or raised. *)

Inductive Coroutine (A : Type) : Type :=
| Return (a : A)
| Raise (e : PyExc)
| AwaitParse (opts : AnyparserOption) (target : option string)
    (k : PyExc + ParseOutcome -> Coroutine A).

Arguments Return {A} a.
Arguments Raise {A} e.
Arguments AwaitParse {A} opts target k.

Fixpoint bind {A B : Type} (c : Coroutine A) (f : A -> Coroutine B)
  : Coroutine B :=
  match c with
  | Return a => f a
  | Raise e => Raise e
  | AwaitParse opts target k =>
      AwaitParse opts target (fun r => bind (k r) f)
  end.

(** [try: c  except Exception as e: h e] *)
Fixpoint try_except {A : Type} (c : Coroutine A) (h : PyExc -> Coroutine A)
  : Coroutine A :=
  match c with
  | Return a => Return a
  | Raise e => h e
  | AwaitParse opts target k =>
      AwaitParse opts target (fun r => try_except (k r) h)
  end.

(** [await parser.parse(target)]: a failure of the awaited call is raised at
    the [await]. *)
Definition await_parse (opts : AnyparserOption) (target : option string)
  : Coroutine ParseOutcome :=
  AwaitParse opts target
    (fun r => match r with
              | inl e => Raise e
              | inr result => Return result
              end).

(** [await c] inside another coroutine: the caller is suspended wherever [c]
    is and resumes with its result. *)
Definition await {A : Type} (c : Coroutine A) : Coroutine A :=
  bind c Return.

Declare Scope coro_scope.
Delimit Scope coro_scope with coro.
Notation "x <- c ;; k" := (bind c (fun x => k))
  (at level 100, c at next level, right associativity) : coro_scope.

(** The backend: what [parse] does for a parser with these options and this
    target, given everything that happened before. *)
Definition Backend : Type :=
  World -> AnyparserOption -> option string -> PyExc + ParseOutcome.

(** [loop.run_until_complete(c)] on an idle event loop: the coroutine is
    driven to its end, each awaited [parse] being performed once. *)
Fixpoint run_until_complete {A : Type} (backend : Backend) (c : Coroutine A)
    (w : World) : World * (PyExc + A) :=
  match c with
  | Return a => (w, inr a)
  | Raise e => (w, inl e)
  | AwaitParse opts target k =>
      run_until_complete backend (k (backend w opts target))
        (w ++ [EvParse opts target])
  end.

(** ** Documents *)

Record Document : Type := {
  page_content : string;
  metadata : gmap string PyVal
}.

(** A dict literal with string keys. *)
Definition dict (kvs : list (string * PyVal)) : gmap string PyVal :=
  list_to_map kvs.

(** The dict built for one image of a crawled page. *)
Definition image_dict (img : AnyparserImageReference) : PyVal :=
  VDict [("name", display_name img);
         ("index", image_index img);
         ("page", page img)].

(** [AnyparserLoader._create_document_from_url] *)
Definition _create_document_from_url (self : AnyparserLoader)
    (url_result : AnyparserUrl) (page_number total_pages : Z) : Document := {|
  page_content := or_str (or_ (url_markdown url_result) (url_text url_result)) "";
  metadata := dict [
    ("source", VStr (url url_result));
    ("format", VStr (format self));
    ("page_number", VInt page_number);
    ("total_pages", VInt total_pages);
    ("url", VStr (url url_result));
    ("title", title url_result);
    ("status_message", status_message url_result);
    ("status_code", status_code url_result);
    ("politeness_delay", politeness_delay url_result);
    ("total_characters", url_total_characters url_result);
    ("crawled_at", crawled_at url_result);
    ("images",
      if truthy_list (url_images url_result)
      then VList (map image_dict (default [] (url_images url_result)))
      else VList [])
  ]
|}.

(** The document built for one page of a PDF result. *)
Definition pdf_page_document (self : AnyparserLoader)
    (result : AnyparserResultBase) (total_pages : Z) (page : AnyparserPdfPage)
  : Document := {|
  page_content := or_str (or_ (page_markdown page) (page_text page)) "";
  metadata := dict [
    ("source", of_opt_str (file_path self));
    ("format", VStr (format self));
    ("page_number", page_number page);
    ("total_pages", VInt total_pages);
    ("rid", rid result);
    ("checksum", checksum result);
    ("total_characters", total_characters result);
    ("original_filename", original_filename result);
    ("images",
      if truthy_list (page_images page)
      then VList (default [] (page_images page))
      else VList [])
  ]
|}.

(** The document built for a basic result. *)
Definition base_document (self : AnyparserLoader)
    (result : AnyparserResultBase) : Document := {|
  page_content := or_str (markdown result) "";
  metadata := dict [
    ("source", of_opt_str (file_path self));
    ("format", VStr (format self));
    ("rid", rid result);
    ("checksum", checksum result);
    ("total_characters", total_characters result);
    ("original_filename", original_filename result)
  ]
|}.

(** [AnyparserLoader._create_document_from_result]: each branch starts from
    [documents = []] and appends in a [for] loop. *)
Definition _create_document_from_result (self : AnyparserLoader)
    (result : AnyparserResult) : list Document :=
  match result with
  | CrawlResult _ items =>
      let total_pages := Z.of_nat (length items) in
      fold_left
        (fun documents '(i, item) =>
           documents ++ [_create_document_from_url self item i total_pages])
        (enumerate items 1) []
  | PdfResult res items =>
      let total_pages := Z.of_nat (length items) in
      fold_left
        (fun documents '(i, page) =>
           documents ++ [pdf_page_document self res total_pages page])
        (enumerate items 1) []
  | BaseResult res => [] ++ [base_document self res]
  end.

(** [self.format in ["markdown", "html"]] *)
Definition format_is_text (self : AnyparserLoader) : bool :=
  String.eqb (format self) "markdown" || String.eqb (format self) "html".

(** The body of the [try] in [aload], after the [await]. *)
Definition normalize (self : AnyparserLoader) (result : ParseOutcome)
  : Coroutine (list Document) :=
  if format_is_text self then
    match result with
    | OStr s =>
        Return [ {| page_content := s;
                    metadata := dict [("source", of_opt_str (file_path self));
                                      ("format", VStr (format self))] |} ]
    | _ =>
        Raise (ValueError ("Expected string for " +:+ format self +:+
                           " format, got: " +:+
                           type_repr (outcome_class result)))
    end
  else
    match result with
    | OList items =>
        Return (fold_left
                  (fun documents item =>
                     documents ++ _create_document_from_result self item)
                  items [])
    | _ =>
        Raise (ValueError ("Expected list for JSON format, got: " +:+
                           type_repr (outcome_class result)))
    end.

(** [AnyparserLoader.aload] *)
Definition aload (self : AnyparserLoader) : Coroutine (list Document) :=
  try_except
    (result <- await_parse (parser self) (file_path self) ;;
     normalize self result)%coro
    (fun e =>
       Raise (ValueError ("Error parsing document with Anyparser: " +:+ str e))).

(** The event loop [load] finds.  [load] asks asyncio for the current event
    loop and runs [aload] on it; asyncio is not part of the repository, and
    what matters here is whether that loop can be run by the caller. *)
Inductive EventLoop : Type :=
| LoopIdle
| LoopRunning
| LoopClosed
| NoCurrentLoop (thread : string).

(** The [RuntimeError] of [asyncio.get_event_loop()] (no current loop in this
    thread) or of the checks that open [loop.run_until_complete] (loop
    closed, loop already running, as when [load] is called from a coroutine
    or a notebook cell).  It is raised before the coroutine is started. *)
Definition loop_error (loop : EventLoop) : option PyExc :=
  match loop with
  | LoopIdle => None
  | LoopRunning =>
      Some (Exception "RuntimeError" "This event loop is already running")
  | LoopClosed => Some (Exception "RuntimeError" "Event loop is closed")
  | NoCurrentLoop thread =>
      Some (Exception "RuntimeError"
              ("There is no current event loop in thread '" +:+ thread +:+
               "'."))
  end.

(** [AnyparserLoader.load] *)
Definition load (self : AnyparserLoader) (loop : EventLoop) (backend : Backend)
    (w : World) : World * (PyExc + list Document) :=
  match loop_error loop with
  | Some e => (w, inl e)
  | None => run_until_complete backend (aload self) w
  end.

(** ** Vocabulary of the specification *)

(** The number of records an item contributes: one for a basic result, one
    per page for a PDF result and for a crawl result. *)
Definition record_count (item : AnyparserResult) : nat :=
  match item with
  | BaseResult _ => 1%nat
  | PdfResult _ pages => length pages
  | CrawlResult _ pages => length pages
  end.

(** The fallback chain in the specification's words: the markdown when it is
    non-empty, otherwise the text when present, otherwise the empty string. *)
Definition fallback_chain (md text : option string) : string :=
  match md with
  | Some (String c rest) => String c rest
  | _ => match text with
         | Some t => t
         | None => ""
         end
  end.

(** The event of the one [parse] call a loader makes. *)
Definition parse_event (self : AnyparserLoader) : Event :=
  EvParse (parser self) (file_path self).

(** A constructed loader's target is a non-empty string. *)
Definition target_nonempty (self : AnyparserLoader) : Prop :=
  exists t : string, file_path self = Some t /\ t <> "".

(** ** Fixtures, after tests/test_loader.py *)

Definition kw_file (path fmt : string) : Kw.t := {|
  Kw.file_path := Some path;
  Kw.anyparser_api_key := None;
  Kw.anyparser_api_url := None;
  Kw.format := fmt;
  Kw.model := "text";
  Kw.encoding := "utf-8";
  Kw.image := None;
  Kw.table := None;
  Kw.ocr_language := None;
  Kw.ocr_preset := None;
  Kw.url := None;
  Kw.max_depth := None;
  Kw.max_executions := None;
  Kw.strategy := None;
  Kw.traversal_scope := None
|}.

Definition kw_url (u mdl fmt : string) : Kw.t := {|
  Kw.file_path := None;
  Kw.anyparser_api_key := None;
  Kw.anyparser_api_url := None;
  Kw.format := fmt;
  Kw.model := mdl;
  Kw.encoding := "utf-8";
  Kw.image := None;
  Kw.table := None;
  Kw.ocr_language := None;
  Kw.ocr_preset := None;
  Kw.url := Some u;
  Kw.max_depth := None;
  Kw.max_executions := None;
  Kw.strategy := None;
  Kw.traversal_scope := None
|}.

Definition kw_both : Kw.t := {|
  Kw.file_path := Some "test.pdf";
  Kw.anyparser_api_key := None;
  Kw.anyparser_api_url := None;
  Kw.format := "markdown";
  Kw.model := "text";
  Kw.encoding := "utf-8";
  Kw.image := None;
  Kw.table := None;
  Kw.ocr_language := None;
  Kw.ocr_preset := None;
  Kw.url := Some "http://example.com";
  Kw.max_depth := None;
  Kw.max_executions := None;
  Kw.strategy := None;
  Kw.traversal_scope := None
|}.

(** The options [__init__] forwards for a set of arguments. *)
Definition options_of (kw : Kw.t) : AnyparserOption := {|
  opt_api_key := Kw.anyparser_api_key kw;
  opt_api_url := Kw.anyparser_api_url kw;
  opt_format := Kw.format kw;
  opt_model := Kw.model kw;
  opt_encoding := Kw.encoding kw;
  opt_image := Kw.image kw;
  opt_table := Kw.table kw;
  opt_ocr_language := Kw.ocr_language kw;
  opt_ocr_preset := Kw.ocr_preset kw;
  opt_url := Kw.url kw;
  opt_max_depth := Kw.max_depth kw;
  opt_max_executions := Kw.max_executions kw;
  opt_strategy := Kw.strategy kw;
  opt_traversal_scope := Kw.traversal_scope kw
|}.

(** [AnyparserLoader(file_path="test.pdf", format=fmt)] *)
Definition file_loader (fmt : string) : AnyparserLoader := {|
  file_path := Some "test.pdf";
  format := fmt;
  model := "text";
  options := options_of (kw_file "test.pdf" fmt)
|}.

(** [AnyparserLoader(url="http://example.com", model="crawler", format="json")] *)
Definition crawl_loader : AnyparserLoader := {|
  file_path := Some "http://example.com";
  format := "json";
  model := "crawler";
  options := options_of (kw_url "http://example.com" "crawler" "json")
|}.

Definition test_base : AnyparserResultBase := {|
  rid := VStr "test_rid";
  original_filename := VStr "test.pdf";
  checksum := VStr "test_checksum";
  total_characters := VInt 100;
  markdown := Some "base content"
|}.

Definition test_page (n : Z) (md : option string) : AnyparserPdfPage := {|
  page_number := VInt n;
  page_markdown := md;
  page_text := Some "pdf page content";
  page_images := Some []
|}.

Definition test_url (u : string) (md text : option string) : AnyparserUrl := {|
  url := u;
  title := VStr "Page 1";
  status_message := VStr "OK";
  status_code := VInt 200;
  politeness_delay := VInt 100;
  url_total_characters := VInt 100;
  crawled_at := VStr "now";
  url_markdown := md;
  url_text := text;
  url_images := Some []
|}.

(** A backend whose [parse] always returns [result]. *)
Definition returning (result : ParseOutcome) : Backend :=
  fun _ _ _ => inr result.

(** A backend whose [parse] always raises [e]. *)
Definition raising (e : PyExc) : Backend :=
  fun _ _ _ => inl e.

(** A two-page PDF whose pages carry page numbers 7 and 9, then a basic
    result, then a two-page crawl. *)
Definition mixed_items : list AnyparserResult :=
  [ PdfResult test_base [test_page 7 (Some "page 1 content"); test_page 9 None];
    BaseResult test_base;
    CrawlResult "http://example.com"
      [test_url "http://example.com/page1" (Some "page 1 content") None;
       test_url "http://example.com/page2" None (Some "page 2 text")] ].

(** [AnyparserLoader(file_path="")]: what [__init__] builds. *)
Definition empty_path_loader : AnyparserLoader := {|
  file_path := Some "";
  format := "markdown";
  model := "text";
  options := options_of (kw_file "" "markdown")
|}.

(** [AnyparserLoader(url="http://example.com")], the model left at its
    default "text": what [__init__] builds. *)
Definition url_text_loader : AnyparserLoader := {|
  file_path := None;
  format := "markdown";
  model := "text";
  options := options_of (kw_url "http://example.com" "text" "markdown")
|}.

(** The fields the tests look at. *)
Definition shown (docs : list Document)
  : list (string * option PyVal * option PyVal * option PyVal) :=
  map (fun d => (page_content d, metadata d !! "source",
                 metadata d !! "page_number", metadata d !! "total_pages"))
    docs.

(** ** A caller: [main] of examples/05_load_folder.py

    The script lists a folder, keeps at most five entries and loads them one
    after the other into one list.  The folder listing and the two
    environment variables are inputs here; the final printing is left out.
    [main] runs under [asyncio.run], so each awaited [aload] is driven to
    its end before the loop goes on. *)

(** The arguments of the loader built for one file. *)
Definition folder_kw (api_key api_url : option string) (path : string)
  : Kw.t := {|
  Kw.file_path := Some path;
  Kw.anyparser_api_key := api_key;
  Kw.anyparser_api_url := api_url;
  Kw.format := "markdown";
  Kw.model := "text";
  Kw.encoding := "utf-8";
  Kw.image := None;
  Kw.table := None;
  Kw.ocr_language := None;
  Kw.ocr_preset := None;
  Kw.url := None;
  Kw.max_depth := None;
  Kw.max_executions := None;
  Kw.strategy := None;
  Kw.traversal_scope := None
|}.

(** The [for file_path in files] loop, from any of its iterations: an
    exception of the constructor or of [aload] leaves the loop. *)
Fixpoint load_folder_loop (backend : Backend) (api_key api_url : option string)
    (files : list string) (all_documents : list Document) (w : World)
  : World * (PyExc + list Document) :=
  match files with
  | [] => (w, inr all_documents)
  | path :: rest =>
      match init (folder_kw api_key api_url path) w with
      | (w1, inl e) => (w1, inl e)
      | (w1, inr loader) =>
          match run_until_complete backend (aload loader) w1 with
          | (w2, inl e) => (w2, inl e)
          | (w2, inr documents) =>
              load_folder_loop backend api_key api_url rest
                (all_documents ++ documents) w2
          end
      end
  end.

(** [main], up to the list handed to [print_documents]. *)
Definition load_folder_main (backend : Backend)
    (api_key api_url : option string) (listing : list string) (w : World)
  : World * (PyExc + list Document) :=
  load_folder_loop backend api_key api_url (take 5 listing) [] w.

(** A [parse] call, among the events. *)
Definition is_parse (ev : Event) : bool :=
  match ev with
  | EvParse _ _ => true
  | EvAnyparser _ => false
  end.

(** The loader [main] builds for one file. *)
Definition folder_loader (api_key api_url : option string) (path : string)
  : AnyparserLoader := {|
  file_path := Some path;
  format := "markdown";
  model := "text";
  options := options_of (folder_kw api_key api_url path)
|}.

(** What one iteration of [main]'s loop does to the world: a parser is
    built for the file, then asked once. *)
Definition folder_events (api_key api_url : option string) (path : string)
  : list Event :=
  [EvAnyparser (options_of (folder_kw api_key api_url path));
   EvParse (options_of (folder_kw api_key api_url path)) (Some path)].

(** The number of [parse] calls among some events. *)
Definition parse_calls (evs : list Event) : nat :=
  length (List.filter is_parse evs).

(** A backend that answers every target with a string naming it. *)
Definition echo_backend : Backend :=
  fun _ _ target => inr (OStr ("content of " +:+ default "" target)).

(** A backend that fails on one target and echoes the others. *)
Definition failing_on (bad : string) : Backend :=
  fun _ _ target =>
    if decide (target = Some bad) then inl (Exception "IOError" "unreadable")
    else inr (OStr ("content of " +:+ default "" target)).

(** A crawl result without pages, a PDF result without pages. *)
Definition pageless_items : list AnyparserResult :=
  [CrawlResult "http://example.com" []; PdfResult test_base []].

Definition test_image : AnyparserImageReference := {|
  display_name := VStr "logo.png";
  image_index := VInt 0;
  page := VNone
|}.

(** ** Loops as maps *)

Section Loops.
Context {A B : Type}.

(** A [for] loop that extends an accumulator is a concatenation. *)
Lemma fold_extend (f : A -> list B) (l : list A) (acc : list B) :
  fold_left (fun documents item => documents ++ f item) l acc
  = acc ++ concat (map f l).
Proof.
  revert acc. induction l as [|x l IH]; intros acc; simpl.
  - by rewrite app_nil_r.
  - rewrite IH. by rewrite <- app_assoc.
Qed.

(** A [for] loop over [enumerate] that appends one element per step. *)
Lemma fold_append_enumerate (g : Z -> A -> B) (l : list A) (start : Z)
    (acc : list B) :
  fold_left (fun documents '(i, item) => documents ++ [g i item])
    (enumerate l start) acc
  = acc ++ map (fun '(i, item) => g i item) (enumerate l start).
Proof.
  revert start acc. induction l as [|x l IH]; intros start acc; simpl.
  - by rewrite app_nil_r.
  - rewrite IH. by rewrite <- app_assoc.
Qed.

Lemma length_enumerate (l : list A) (start : Z) :
  length (enumerate l start) = length l.
Proof.
  revert start. induction l as [|x l IH]; intros start; simpl; [done|].
  by rewrite IH.
Qed.

(** When the index is not used, [enumerate] disappears. *)
Lemma map_enumerate_snd (g : A -> B) (l : list A) (start : Z) :
  map (fun '(_, item) => g item) (enumerate l start) = map g l.
Proof.
  revert start. induction l as [|x l IH]; intros start; simpl; [done|].
  by rewrite IH.
Qed.

(** The indices of [enumerate l start] are [start], [start + 1], ... *)
Lemma map_enumerate_fst (g : Z -> B) (l : list A) (start : Z) :
  map (fun '(i, _) => g i) (enumerate l start)
  = map (fun k => g (start + Z.of_nat k)) (seq 0 (length l)).
Proof.
  revert start. induction l as [|x l IH]; intros start; simpl; [done|].
  rewrite Z.add_0_r. f_equal.
  rewrite IH, <- seq_shift, map_map.
  apply map_ext. intros k. f_equal. lia.
Qed.
End Loops.

Lemma map_const {A B : Type} (c : B) (l : list A) :
  map (fun _ => c) l = replicate (length l) c.
Proof. induction l as [|x l IH]; simpl; [done|]. by rewrite IH. Qed.

(** ** What [_create_document_from_result] builds *)

Lemma create_from_crawl (self : AnyparserLoader) (start_url : string)
    (pages : list AnyparserUrl) :
  _create_document_from_result self (CrawlResult start_url pages)
  = map (fun '(i, item) =>
           _create_document_from_url self item i (Z.of_nat (length pages)))
        (enumerate pages 1).
Proof. simpl. by rewrite fold_append_enumerate. Qed.

Lemma create_from_pdf (self : AnyparserLoader) (res : AnyparserResultBase)
    (pages : list AnyparserPdfPage) :
  _create_document_from_result self (PdfResult res pages)
  = map (pdf_page_document self res (Z.of_nat (length pages))) pages.
Proof.
  simpl.
  rewrite (fold_append_enumerate
             (fun _ => pdf_page_document self res (Z.of_nat (length pages)))).
  simpl. apply map_enumerate_snd.
Qed.

Lemma create_from_base (self : AnyparserLoader) (res : AnyparserResultBase) :
  _create_document_from_result self (BaseResult res) = [base_document self res].
Proof. reflexivity. Qed.

Lemma length_create (self : AnyparserLoader) (item : AnyparserResult) :
  length (_create_document_from_result self item) = record_count item.
Proof.
  destruct item as [res|res pages|start_url pages].
  - reflexivity.
  - rewrite create_from_pdf. by rewrite length_map.
  - rewrite create_from_crawl. rewrite length_map. apply length_enumerate.
Qed.

Lemma length_concat_create (self : AnyparserLoader)
    (items : list AnyparserResult) :
  length (concat (map (_create_document_from_result self) items))
  = sum_list (map record_count items).
Proof.
  induction items as [|item items IH]; simpl; [done|].
  rewrite length_app, length_create, IH. done.
Qed.

(** ** Running [aload] *)

(** [bind c Return] runs as [c] does. *)
Lemma run_bind_Return {A : Type} (backend : Backend) (c : Coroutine A)
    (w : World) :
  run_until_complete backend (bind c Return) w
  = run_until_complete backend c w.
Proof.
  revert w. induction c as [a|e|opts target k IH]; intros w; simpl; auto.
Qed.

(** The shape checks finish without another suspension. *)
Lemma normalize_finishes (self : AnyparserLoader) (result : ParseOutcome) :
  (exists docs, normalize self result = Return docs) \/
  (exists msg, normalize self result = Raise (ValueError msg)).
Proof.
  unfold normalize.
  destruct (format_is_text self), result; eauto.
Qed.

(** [aload] asks the backend once; what follows depends on the answer. *)
Lemma run_aload_failure (self : AnyparserLoader) (backend : Backend)
    (w : World) (e : PyExc) :
  backend w (parser self) (file_path self) = inl e ->
  run_until_complete backend (aload self) w
  = (w ++ [parse_event self],
     inl (ValueError ("Error parsing document with Anyparser: " +:+ str e))).
Proof.
  intros H. unfold aload, await_parse, parse_event. simpl. by rewrite H.
Qed.

Lemma run_aload_return (self : AnyparserLoader) (backend : Backend)
    (w : World) (result : ParseOutcome) (docs : list Document) :
  backend w (parser self) (file_path self) = inr result ->
  normalize self result = Return docs ->
  run_until_complete backend (aload self) w
  = (w ++ [parse_event self], inr docs).
Proof.
  intros H Hn. unfold aload, await_parse, parse_event. simpl.
  rewrite H. simpl. by rewrite Hn.
Qed.

Lemma run_aload_raise (self : AnyparserLoader) (backend : Backend)
    (w : World) (result : ParseOutcome) (e : PyExc) :
  backend w (parser self) (file_path self) = inr result ->
  normalize self result = Raise e ->
  run_until_complete backend (aload self) w
  = (w ++ [parse_event self],
     inl (ValueError ("Error parsing document with Anyparser: " +:+ str e))).
Proof.
  intros H Hn. unfold aload, await_parse, parse_event. simpl.
  rewrite H. simpl. by rewrite Hn.
Qed.

(** Whatever the backend answers, [aload] has asked it exactly once. *)
Lemma aload_asks_once (self : AnyparserLoader) (backend : Backend)
    (w : World) :
  fst (run_until_complete backend (aload self) w) = w ++ [parse_event self].
Proof.
  destruct (backend w (parser self) (file_path self)) as [e|result] eqn:Hb.
  - by rewrite (run_aload_failure self backend w e Hb).
  - destruct (normalize_finishes self result) as [[docs Hn]|[msg Hn]].
    + by rewrite (run_aload_return self backend w result docs Hb Hn).
    + by rewrite (run_aload_raise self backend w result _ Hb Hn).
Qed.

(** A failed shape check: the [ValueError] raised in the [try] body reaches
    the handler.  [Hparse] is the backend's answer, [Hshape] the value of
    [format_is_text]. *)
Ltac shape_error Hparse Hshape :=
  lazymatch type of Hparse with
  | ?backend ?w (parser ?self) (file_path ?self) = inr ?result =>
      let H := fresh in
      pose proof (run_aload_raise self backend w result) as H;
      unfold normalize in H; rewrite Hshape in H;
      exact (H _ Hparse eq_refl)
  end.

Lemma format_json_not_text (self : AnyparserLoader) :
  format self = "json" -> format_is_text self = false.
Proof. unfold format_is_text. intros ->. reflexivity. Qed.

Lemma format_text (self : AnyparserLoader) :
  format self = "markdown" \/ format self = "html" ->
  format_is_text self = true.
Proof. unfold format_is_text. intros [-> | ->]; reflexivity. Qed.

Lemma append_empty_r (s : string) : s +:+ "" = s.
Proof.
  induction s as [|c s IH]; [done|].
  change (String c (s +:+ "") = String c s). by rewrite IH.
Qed.

Lemma contains_suffix (pre s : string) : contains (pre +:+ s) s.
Proof. exists pre, "". by rewrite append_empty_r. Qed.

(** ** The outcome of a call, by format *)

(** C1. With format json, an outcome that is not a list makes the call fail
    with a [ValueError] that states the expected and the actual type; a list
    makes it return the records of its items, concatenated in input order,
    as many as the sum over the items of 1 for a basic result and the page
    count for a PDF or crawl result. *)
Theorem aload_json (self : AnyparserLoader) (backend : Backend) (w : World)
    (result : ParseOutcome) :
  format self = "json" ->
  backend w (parser self) (file_path self) = inr result ->
  match result with
  | OList items =>
      exists docs : list Document,
        run_until_complete backend (aload self) w
        = (w ++ [parse_event self], inr docs) /\
        docs = concat (map (_create_document_from_result self) items) /\
        length docs = sum_list (map record_count items)
  | _ =>
      run_until_complete backend (aload self) w
      = (w ++ [parse_event self],
         inl (ValueError
                ("Error parsing document with Anyparser: " +:+
                 "Expected list for JSON format, got: " +:+
                 type_repr (outcome_class result))))
  end.
Proof.
  intros Hfmt Hparse.
  pose proof (format_json_not_text self Hfmt) as Hjson.
  destruct result as [s|items|cls].
  - shape_error Hparse Hjson.
  - exists (concat (map (_create_document_from_result self) items)).
    split; [|split; [done|apply length_concat_create]].
    apply (run_aload_return self backend w (OList items)); [done|].
    unfold normalize. rewrite Hjson. f_equal.
    apply (fold_extend (_create_document_from_result self) items []).
  - shape_error Hparse Hjson.
Qed.

(** C2. With format markdown or html, a string outcome makes the call return
    exactly one record, whose content is that string and whose metadata is
    exactly source (the loader's target) and format; any other outcome makes
    it fail with a [ValueError] naming the expected and the actual type. *)
Theorem aload_text (self : AnyparserLoader) (backend : Backend) (w : World)
    (result : ParseOutcome) :
  format self = "markdown" \/ format self = "html" ->
  backend w (parser self) (file_path self) = inr result ->
  match result with
  | OStr s =>
      run_until_complete backend (aload self) w
      = (w ++ [parse_event self],
         inr [ {| page_content := s;
                  metadata := {[ "source" := of_opt_str (file_path self);
                                 "format" := VStr (format self) ]} |} ])
  | _ =>
      run_until_complete backend (aload self) w
      = (w ++ [parse_event self],
         inl (ValueError
                ("Error parsing document with Anyparser: " +:+
                 "Expected string for " +:+ format self +:+
                 " format, got: " +:+ type_repr (outcome_class result))))
  end.
Proof.
  intros Hfmt Hparse.
  pose proof (format_text self Hfmt) as Htext.
  destruct result as [s|items|cls].
  - apply (run_aload_return self backend w (OStr s)); [done|].
    unfold normalize. rewrite Htext. reflexivity.
  - shape_error Hparse Htext.
  - shape_error Hparse Htext.
Qed.

(** ** Content and metadata of the derived records *)

Lemma or_chain_fallback (md text : option string) :
  or_str (or_ md text) "" = fallback_chain md text.
Proof. destruct md as [[|c m]|], text as [[|c' t]|]; reflexivity. Qed.

Lemma or_str_fallback (md : option string) :
  or_str md "" = fallback_chain md None.
Proof. destruct md as [[|c m]|]; reflexivity. Qed.

(** C3. Under format json the content of every derived record follows the
    fallback chain: the markdown when non-empty, otherwise the text when
    present, otherwise the empty string; it is always a string.  A basic
    result has no text attribute, so its chain has no text to fall back to. *)
Theorem content_fallback (self : AnyparserLoader) :
  (forall res : AnyparserResultBase,
     map page_content (_create_document_from_result self (BaseResult res))
     = [fallback_chain (markdown res) None]) /\
  (forall (res : AnyparserResultBase) (pages : list AnyparserPdfPage),
     map page_content (_create_document_from_result self (PdfResult res pages))
     = map (fun p => fallback_chain (page_markdown p) (page_text p)) pages) /\
  (forall (start_url : string) (pages : list AnyparserUrl),
     map page_content
       (_create_document_from_result self (CrawlResult start_url pages))
     = map (fun u => fallback_chain (url_markdown u) (url_text u)) pages).
Proof.
  split; [|split].
  - intros res. rewrite create_from_base. simpl. by rewrite or_str_fallback.
  - intros res pages. rewrite create_from_pdf, map_map.
    apply map_ext. intros p. apply or_chain_fallback.
  - intros start_url pages. rewrite create_from_crawl, map_map.
    rewrite <- (map_enumerate_snd
                  (fun u => fallback_chain (url_markdown u) (url_text u))
                  pages 1).
    apply map_ext. intros [i u]. apply or_chain_fallback.
Qed.

(** C4. Every record derived from a crawl page has that page's own URL as
    its source (and as its url), whatever the loader's target is; every
    record derived from a PDF page or a basic result has the loader's target
    as its source. *)
Theorem source_metadata (self : AnyparserLoader) :
  (forall (start_url : string) (pages : list AnyparserUrl),
     map (fun d => (metadata d !! "source", metadata d !! "url"))
       (_create_document_from_result self (CrawlResult start_url pages))
     = map (fun u => (Some (VStr (url u)), Some (VStr (url u)))) pages) /\
  (forall (res : AnyparserResultBase) (pages : list AnyparserPdfPage),
     map (fun d => metadata d !! "source")
       (_create_document_from_result self (PdfResult res pages))
     = map (fun _ => Some (of_opt_str (file_path self))) pages) /\
  (forall res : AnyparserResultBase,
     map (fun d => metadata d !! "source")
       (_create_document_from_result self (BaseResult res))
     = [Some (of_opt_str (file_path self))]).
Proof.
  split; [|split].
  - intros start_url pages. rewrite create_from_crawl, map_map.
    rewrite <- (map_enumerate_snd
                  (fun u => (Some (VStr (url u)), Some (VStr (url u))))
                  pages 1).
    apply map_ext. intros [i u]. reflexivity.
  - intros res pages. rewrite create_from_pdf, map_map.
    apply map_ext. intros p. reflexivity.
  - intros res. reflexivity.
Qed.

(** C5. Every record derived from an N-page PDF or crawl result carries
    total_pages N; the crawl records carry page_number 1..N in input order;
    each PDF record carries its page's own page_number attribute, whatever
    the page's position. *)
Theorem page_numbering (self : AnyparserLoader) :
  (forall (start_url : string) (pages : list AnyparserUrl),
     let docs :=
       _create_document_from_result self (CrawlResult start_url pages) in
     map (fun d => metadata d !! "total_pages") docs
     = replicate (length pages) (Some (VInt (Z.of_nat (length pages)))) /\
     map (fun d => metadata d !! "page_number") docs
     = map (fun k => Some (VInt (Z.of_nat k))) (seq 1 (length pages))) /\
  (forall (res : AnyparserResultBase) (pages : list AnyparserPdfPage),
     let docs := _create_document_from_result self (PdfResult res pages) in
     map (fun d => metadata d !! "total_pages") docs
     = replicate (length pages) (Some (VInt (Z.of_nat (length pages)))) /\
     map (fun d => metadata d !! "page_number") docs
     = map (fun p => Some (page_number p)) pages).
Proof.
  split.
  - intros start_url pages docs. subst docs.
    rewrite create_from_crawl, !map_map. split.
    + transitivity
        (map (fun _ : Z * AnyparserUrl =>
                Some (VInt (Z.of_nat (length pages))))
           (enumerate pages 1)).
      * apply map_ext. intros [i u]. reflexivity.
      * rewrite map_const. by rewrite length_enumerate.
    + transitivity
        (map (fun '(i, _) => Some (VInt i)) (enumerate pages 1)).
      * apply map_ext. intros [i u]. reflexivity.
      * rewrite (map_enumerate_fst (fun i => Some (VInt i)) pages 1).
        rewrite <- seq_shift, map_map.
        apply map_ext. intros k. do 2 f_equal. lia.
  - intros res pages docs. subst docs.
    rewrite create_from_pdf, !map_map. split.
    + rewrite <- map_const. apply map_ext. intros p. reflexivity.
    + apply map_ext. intros p. reflexivity.
Qed.

(** ** Failures *)

(** C6. When the backend's [parse] raises, the call fails with one
    [ValueError] whose message is the failure's description after the prefix
    "Error parsing document with Anyparser: ", so the description occurs in
    it; the backend has been asked exactly once. *)
Theorem aload_backend_failure (self : AnyparserLoader) (backend : Backend)
    (w : World) (e : PyExc) :
  backend w (parser self) (file_path self) = inl e ->
  run_until_complete backend (aload self) w
  = (w ++ [EvParse (parser self) (file_path self)],
     inl (ValueError ("Error parsing document with Anyparser: " +:+ str e)))
  /\ contains ("Error parsing document with Anyparser: " +:+ str e) (str e).
Proof.
  intros H. split.
  - by apply run_aload_failure.
  - apply contains_suffix.
Qed.

(** C10. Every error of a call, through [load] on an idle loop or through
    an awaited [aload], is a [ValueError] whose message starts with
    "Error parsing document with Anyparser: " and continues with the
    description of the error caught by the handler: either the backend's
    failure, or the [ValueError] of a failed shape check, raised inside the
    same [try] and so wrapped once more. *)
Theorem errors_carry_prefix (self : AnyparserLoader) (backend : Backend)
    (w w' : World) (e : PyExc) :
  load self LoopIdle backend w = (w', inl e) \/
  run_until_complete backend (await (aload self)) w = (w', inl e) ->
  exists inner : PyExc,
    e = ValueError ("Error parsing document with Anyparser: " +:+ str inner) /\
    (backend w (parser self) (file_path self) = inl inner \/
     exists (result : ParseOutcome) (msg : string),
       backend w (parser self) (file_path self) = inr result /\
       normalize self result = Raise inner /\
       inner = ValueError msg).
Proof.
  intros H.
  assert (Hrun : run_until_complete backend (aload self) w = (w', inl e)).
  { destruct H as [H|H]; [exact H|].
    unfold await in H. by rewrite run_bind_Return in H. }
  clear H.
  destruct (backend w (parser self) (file_path self)) as [inner|result] eqn:Hb.
  - rewrite (run_aload_failure self backend w inner Hb) in Hrun.
    exists inner. split; [congruence|by left].
  - destruct (normalize_finishes self result) as [[docs Hn]|[msg Hn]].
    + rewrite (run_aload_return self backend w result docs Hb Hn) in Hrun.
      congruence.
    + rewrite (run_aload_raise self backend w result _ Hb Hn) in Hrun.
      exists (ValueError msg). split; [congruence|].
      right. by exists result, msg.
Qed.

(** ** Construction *)

(** C7. With neither a file path nor a url, and with both, [__init__]
    raises a [ValueError] with the documented message and has touched
    nothing: no parser was built and no [parse] call was made.  With exactly
    one of them the loader is built. *)
Theorem init_validates_targets (kw : Kw.t) (w : World) :
  match Kw.file_path kw, Kw.url kw with
  | None, None =>
      init kw w
      = (w, inl (ValueError "Either file_path or url must be provided"))
  | Some _, Some _ =>
      init kw w
      = (w, inl (ValueError "Only one of file_path or url should be provided"))
  | _, _ =>
      exists self : AnyparserLoader,
        init kw w = (w ++ [EvAnyparser (options_of kw)], inr self)
  end.
Proof.
  unfold init, options_of.
  destruct (Kw.file_path kw) as [p|], (Kw.url kw) as [u|];
    try reflexivity; eexists; reflexivity.
Qed.

(** What a successful [__init__] leaves behind. *)
Lemma init_success (kw : Kw.t) (w w' : World) (self : AnyparserLoader) :
  init kw w = (w', inr self) ->
  file_path self
  = (if String.eqb (Kw.model kw) "crawler" then Kw.url kw
     else Kw.file_path kw) /\
  format self = Kw.format kw /\
  model self = Kw.model kw /\
  options self = options_of kw /\
  w' = w ++ [EvAnyparser (options_of kw)].
Proof.
  unfold init, options_of.
  destruct (Kw.file_path kw) as [p|], (Kw.url kw) as [u|];
    intros H; inversion H; subst; simpl; auto.
Qed.

(** C8, as the code has it.  When construction succeeds and the supplied
    source matches the model (a url with model crawler, a file path with any
    other model), the loader's target is the supplied string, it is what
    [parse] receives, and it is non-empty when the supplied string is. *)
Theorem init_target_supplied (kw : Kw.t) (w w' : World)
    (self : AnyparserLoader) (t : string) :
  init kw w = (w', inr self) ->
  (Kw.model kw = "crawler" /\ Kw.url kw = Some t) \/
  (Kw.model kw <> "crawler" /\ Kw.file_path kw = Some t) ->
  file_path self = Some t /\
  (t <> "" -> target_nonempty self) /\
  (forall (backend : Backend) (w0 : World),
     fst (run_until_complete backend (aload self) w0)
     = w0 ++ [EvParse (options_of kw) (Some t)]).
Proof.
  intros Hinit Hsupplied.
  destruct (init_success kw w w' self Hinit) as (Hfp & _ & _ & Ho & _).
  assert (Ht : file_path self = Some t).
  { rewrite Hfp. destruct Hsupplied as [[Hm Hu]|[Hm Hp]].
    - by rewrite Hm, Hu.
    - apply String.eqb_neq in Hm. by rewrite Hm, Hp. }
  split; [exact Ht|split].
  - intros Hne. exists t. by split.
  - intros backend w0. rewrite aload_asks_once.
    unfold parse_event, parser. by rewrite Ho, Ht.
Qed.

(** ** The two calling conventions *)

(** C9, as the code has it.  On a current event loop that is open and not
    running, [load] and an awaited [aload] end in the same world with the
    same outcome, and that outcome is the one [aload]'s body fixes: the
    backend is asked once; its failure, or the failure of the shape check,
    comes back as the prefixed [ValueError]; otherwise the normalized records
    come back.  On a loop that is running or closed, and without a current
    loop, [load] raises [RuntimeError] and the backend is not asked. *)
Theorem load_same_as_aload (self : AnyparserLoader) (backend : Backend)
    (w : World) :
  (exists outcome : PyExc + list Document,
     load self LoopIdle backend w = (w ++ [parse_event self], outcome) /\
     run_until_complete backend
       (docs <- await (aload self) ;; Return docs)%coro w
     = (w ++ [parse_event self], outcome) /\
     match backend w (parser self) (file_path self) with
     | inl e =>
         outcome
         = inl (ValueError
                  ("Error parsing document with Anyparser: " +:+ str e))
     | inr result =>
         (exists docs : list Document,
            normalize self result = Return docs /\ outcome = inr docs) \/
         (exists e : PyExc,
            normalize self result = Raise e /\
            outcome
            = inl (ValueError
                     ("Error parsing document with Anyparser: " +:+ str e)))
     end) /\
  (exists msg : string,
     load self LoopRunning backend w
     = (w, inl (Exception "RuntimeError" msg))) /\
  (exists msg : string,
     load self LoopClosed backend w
     = (w, inl (Exception "RuntimeError" msg))) /\
  (forall thread : string, exists msg : string,
     load self (NoCurrentLoop thread) backend w
     = (w, inl (Exception "RuntimeError" msg))).
Proof.
  split;
    [|split; [eexists; reflexivity
             |split; [eexists; reflexivity
                     |intros thread; eexists; reflexivity]]].
  unfold load, loop_error, await. rewrite !run_bind_Return.
  destruct (backend w (parser self) (file_path self)) as [e|result] eqn:Hb.
  - eexists. split; [by apply run_aload_failure|].
    split; [by apply run_aload_failure|done].
  - destruct (normalize_finishes self result) as [[docs Hn]|[msg Hn]].
    + exists (inr docs).
      rewrite (run_aload_return self backend w result docs Hb Hn).
      split; [done|split; [done|]]. left. by exists docs.
    + eexists.
      rewrite (run_aload_raise self backend w result _ Hb Hn).
      split; [done|split; [done|]]. right. by eexists.
Qed.

(** ** The claims at concrete inputs *)

Lemma aload_json_witness :
  (exists docs : list Document,
     run_until_complete (returning (OList mixed_items))
       (aload (file_loader "json")) []
     = ([parse_event (file_loader "json")], inr docs) /\
     docs = concat (map (_create_document_from_result (file_loader "json"))
                      mixed_items) /\
     length docs = 5%nat) /\
  run_until_complete (returning (OStr "not a list"))
    (aload (file_loader "json")) []
  = ([parse_event (file_loader "json")],
     inl (ValueError
            "Error parsing document with Anyparser: Expected list for JSON format, got: <class 'str'>")).
Proof.
  split.
  - exact (aload_json (file_loader "json") (returning (OList mixed_items)) []
             (OList mixed_items) eq_refl eq_refl).
  - exact (aload_json (file_loader "json") (returning (OStr "not a list")) []
             (OStr "not a list") eq_refl eq_refl).
Defined.

Lemma aload_text_witness :
  run_until_complete (returning (OStr "mocked markdown content"))
    (aload (file_loader "markdown")) []
  = ([parse_event (file_loader "markdown")],
     inr [ {| page_content := "mocked markdown content";
              metadata := {[ "source" := VStr "test.pdf";
                             "format" := VStr "markdown" ]} |} ]) /\
  run_until_complete (returning (OList [])) (aload (file_loader "html")) []
  = ([parse_event (file_loader "html")],
     inl (ValueError
            "Error parsing document with Anyparser: Expected string for html format, got: <class 'list'>")).
Proof.
  split.
  - exact (aload_text (file_loader "markdown")
             (returning (OStr "mocked markdown content")) []
             (OStr "mocked markdown content") (or_introl eq_refl) eq_refl).
  - exact (aload_text (file_loader "html") (returning (OList [])) []
             (OList []) (or_intror eq_refl) eq_refl).
Defined.

Lemma aload_backend_failure_witness :
  run_until_complete (raising (Exception "Exception" "boom"))
    (aload (file_loader "markdown")) []
  = ([EvParse (parser (file_loader "markdown")) (Some "test.pdf")],
     inl (ValueError "Error parsing document with Anyparser: boom")) /\
  contains "Error parsing document with Anyparser: boom" "boom".
Proof.
  exact (aload_backend_failure (file_loader "markdown")
           (raising (Exception "Exception" "boom")) []
           (Exception "Exception" "boom") eq_refl).
Defined.

Lemma errors_carry_prefix_witness :
  exists inner : PyExc,
    ValueError
      "Error parsing document with Anyparser: Expected list for JSON format, got: <class 'str'>"
    = ValueError ("Error parsing document with Anyparser: " +:+ str inner) /\
    (returning (OStr "not a list") [] (parser (file_loader "json"))
       (file_path (file_loader "json")) = inl inner \/
     exists (result : ParseOutcome) (msg : string),
       returning (OStr "not a list") [] (parser (file_loader "json"))
         (file_path (file_loader "json")) = inr result /\
       normalize (file_loader "json") result = Raise inner /\
       inner = ValueError msg).
Proof.
  exact (errors_carry_prefix (file_loader "json")
           (returning (OStr "not a list")) []
           [parse_event (file_loader "json")]
           (ValueError
              "Error parsing document with Anyparser: Expected list for JSON format, got: <class 'str'>")
           (or_introl eq_refl)).
Defined.

Lemma init_target_supplied_witness :
  init (kw_url "http://example.com" "crawler" "json") []
  = ([EvAnyparser (options_of (kw_url "http://example.com" "crawler" "json"))],
     inr crawl_loader) /\
  file_path crawl_loader = Some "http://example.com" /\
  ("http://example.com" <> "" -> target_nonempty crawl_loader) /\
  (forall (backend : Backend) (w0 : World),
     fst (run_until_complete backend (aload crawl_loader) w0)
     = w0 ++ [EvParse (options_of (kw_url "http://example.com" "crawler" "json"))
                (Some "http://example.com")]).
Proof.
  split; [reflexivity|].
  exact (init_target_supplied (kw_url "http://example.com" "crawler" "json") []
           [EvAnyparser (options_of (kw_url "http://example.com" "crawler" "json"))]
           crawl_loader "http://example.com" eq_refl
           (or_introl (conj eq_refl eq_refl))).
Defined.

(** C8 as stated fails.  An empty file path passes the [is None] checks and
    becomes the target; a url given without model crawler leaves the target
    [None], and [None] is what [parse] receives. *)
Lemma target_empty_or_None :
  (init (kw_file "" "markdown") []
   = ([EvAnyparser (options_of (kw_file "" "markdown"))],
      inr empty_path_loader) /\
   file_path empty_path_loader = Some "" /\
   ~ target_nonempty empty_path_loader) /\
  (init (kw_url "http://example.com" "text" "markdown") []
   = ([EvAnyparser (options_of (kw_url "http://example.com" "text" "markdown"))],
      inr url_text_loader) /\
   file_path url_text_loader = None /\
   ~ target_nonempty url_text_loader /\
   forall backend : Backend,
     fst (load url_text_loader LoopIdle backend [])
     = [EvParse (parser url_text_loader) None]).
Proof.
  split; [split; [reflexivity|split; [reflexivity|]]
        |split; [reflexivity|split; [reflexivity|split]]].
  - intros (t & Ht & Hne). simpl in Ht. congruence.
  - intros (t & Ht & Hne). simpl in Ht. congruence.
  - intros backend. exact (aload_asks_once url_text_loader backend []).
Qed.

(** C9 as stated fails.  Called where the event loop is already running,
    [load] raises [RuntimeError] and the backend is never asked, while an
    awaited [aload] of the same loader with the same backend returns the
    record. *)
Lemma load_raises_on_running_loop :
  load (file_loader "markdown") LoopRunning (returning (OStr "hello")) []
  = ([], inl (Exception "RuntimeError" "This event loop is already running"))
  /\
  run_until_complete (returning (OStr "hello"))
    (docs <- await (aload (file_loader "markdown")) ;; Return docs)%coro []
  = ([EvParse (parser (file_loader "markdown")) (Some "test.pdf")],
     inr [ {| page_content := "hello";
              metadata := {[ "source" := VStr "test.pdf";
                             "format" := VStr "markdown" ]} |} ]).
Proof. split; reflexivity. Qed.

(** ** The tests of tests/test_loader.py, replayed *)

Example test_aload_json_format_pdf_result :
  shown (_create_document_from_result (file_loader "json")
           (PdfResult test_base
              [test_page 1 (Some "page 1 content");
               test_page 2 (Some "page 2 content")]))
  = [("page 1 content", Some (VStr "test.pdf"), Some (VInt 1), Some (VInt 2));
     ("page 2 content", Some (VStr "test.pdf"), Some (VInt 2), Some (VInt 2))].
Proof. reflexivity. Qed.

Example test_aload_json_format_crawl_result :
  shown (_create_document_from_result crawl_loader
           (CrawlResult "http://example.com"
              [test_url "http://example.com/page1" (Some "page 1 content") None;
               test_url "http://example.com/page2" (Some "page 2 content") None]))
  = [("page 1 content", Some (VStr "http://example.com/page1"),
      Some (VInt 1), Some (VInt 2));
     ("page 2 content", Some (VStr "http://example.com/page2"),
      Some (VInt 2), Some (VInt 2))].
Proof. reflexivity. Qed.

(** Pages numbered 7 and 9 keep their numbers; a page without markdown
    falls back to its text; a basic result has no page metadata. *)
Example mixed_items_records :
  shown (concat (map (_create_document_from_result (file_loader "json"))
                   mixed_items))
  = [("page 1 content", Some (VStr "test.pdf"), Some (VInt 7), Some (VInt 2));
     ("pdf page content", Some (VStr "test.pdf"), Some (VInt 9), Some (VInt 2));
     ("base content", Some (VStr "test.pdf"), None, None);
     ("page 1 content", Some (VStr "http://example.com/page1"),
      Some (VInt 1), Some (VInt 2));
     ("page 2 text", Some (VStr "http://example.com/page2"),
      Some (VInt 2), Some (VInt 2))].
Proof. reflexivity. Qed.

Example test__create_document_from_url_empty :
  page_content
    (_create_document_from_url crawl_loader
       (test_url "http://example.com/test" None None) 1 1)
  = "".
Proof. reflexivity. Qed.

Example test_initialization_invalid :
  init Kw.defaults []
  = ([], inl (ValueError "Either file_path or url must be provided")) /\
  init kw_both []
  = ([], inl (ValueError "Only one of file_path or url should be provided")).
Proof. split; reflexivity. Qed.

Example test_initialization_url :
  init (kw_url "http://example.com" "crawler" "json") []
  = ([EvAnyparser (options_of (kw_url "http://example.com" "crawler" "json"))],
     inr crawl_loader).
Proof. reflexivity. Qed.

Example test_load_sync :
  load (file_loader "markdown") LoopIdle
    (returning (OStr "mocked markdown content")) []
  = ([EvParse (parser (file_loader "markdown")) (Some "test.pdf")],
     inr [ {| page_content := "mocked markdown content";
              metadata := {[ "source" := VStr "test.pdf";
                             "format" := VStr "markdown" ]} |} ]).
Proof. reflexivity. Qed.

(** ** Beyond the claims: the call as a whole *)

Lemma format_other_not_text (self : AnyparserLoader) :
  format self <> "markdown" -> format self <> "html" ->
  format_is_text self = false.
Proof.
  intros Hm Hh. unfold format_is_text.
  apply String.eqb_neq in Hm, Hh. by rewrite Hm, Hh.
Qed.

Lemma normalize_list (self : AnyparserLoader) (items : list AnyparserResult) :
  format_is_text self = false ->
  normalize self (OList items)
  = Return (concat (map (_create_document_from_result self) items)).
Proof.
  intros H. unfold normalize. rewrite H. f_equal.
  apply (fold_extend (_create_document_from_result self) items []).
Qed.

(** A call that returned went through the [try] body without a raise. *)
Lemma run_aload_inr (self : AnyparserLoader) (backend : Backend)
    (w w' : World) (docs : list Document) :
  run_until_complete backend (aload self) w = (w', inr docs) ->
  exists result : ParseOutcome,
    backend w (parser self) (file_path self) = inr result /\
    normalize self result = Return docs.
Proof.
  intros Hrun.
  destruct (backend w (parser self) (file_path self)) as [e|result] eqn:Hb.
  - rewrite (run_aload_failure self backend w e Hb) in Hrun. congruence.
  - exists result. split; [done|].
    destruct (normalize_finishes self result) as [[docs' Hn]|[msg Hn]].
    + rewrite (run_aload_return self backend w result docs' Hb Hn) in Hrun.
      congruence.
    + rewrite (run_aload_raise self backend w result _ Hb Hn) in Hrun.
      congruence.
Qed.

(** X1. The format is only compared with "markdown" and "html": with any
    other format string the outcome is handled as for json, so a list is
    normalized and anything else, a string included, is reported as
    "Expected list for JSON format". *)
Theorem aload_other_format (self : AnyparserLoader) (backend : Backend)
    (w : World) (result : ParseOutcome) :
  format self <> "markdown" -> format self <> "html" ->
  backend w (parser self) (file_path self) = inr result ->
  run_until_complete backend (aload self) w
  = (w ++ [parse_event self],
     match result with
     | OList items =>
         inr (concat (map (_create_document_from_result self) items))
     | _ =>
         inl (ValueError
                ("Error parsing document with Anyparser: " +:+
                 "Expected list for JSON format, got: " +:+
                 type_repr (outcome_class result)))
     end).
Proof.
  intros Hm Hh Hparse.
  pose proof (format_other_not_text self Hm Hh) as Hjson.
  destruct result as [s|items|cls].
  - shape_error Hparse Hjson.
  - apply (run_aload_return self backend w (OList items)); [done|].
    by apply normalize_list.
  - shape_error Hparse Hjson.
Qed.

(** X2. A call that runs, through an awaited [aload] or through [load] on
    an idle loop, makes exactly one [parse] call whatever the backend
    answers, on the loader's own parser with the loader's target, and builds
    no parser; nothing is remembered, so a second call asks again.  [load]
    on a loop that is running or closed, or without a current loop, makes no
    [parse] call at all. *)
Theorem every_call_parses_once (self : AnyparserLoader) (backend : Backend)
    (w : World) :
  fst (load self LoopIdle backend w)
  = w ++ [EvParse (parser self) (file_path self)] /\
  fst (run_until_complete backend (await (aload self)) w)
  = w ++ [EvParse (parser self) (file_path self)] /\
  fst (load self LoopIdle backend (fst (load self LoopIdle backend w)))
  = w ++ [EvParse (parser self) (file_path self);
          EvParse (parser self) (file_path self)] /\
  fst (load self LoopRunning backend w) = w /\
  fst (load self LoopClosed backend w) = w /\
  (forall thread : string,
     fst (load self (NoCurrentLoop thread) backend w) = w).
Proof.
  unfold load, await. cbn [loop_error fst].
  rewrite run_bind_Return, !aload_asks_once.
  unfold parse_event. rewrite <- app_assoc. by repeat split.
Qed.

Lemma create_format (self : AnyparserLoader) (item : AnyparserResult) :
  Forall (fun d => metadata d !! "format" = Some (VStr (format self)))
    (_create_document_from_result self item).
Proof.
  destruct item as [res|res pages|start_url pages].
  - rewrite create_from_base. by constructor.
  - rewrite create_from_pdf. apply Forall_map, Forall_true. by intros p.
  - rewrite create_from_crawl. apply Forall_map, Forall_true. by intros [i u].
Qed.

(** X3. Every record a call returns carries the loader's format in its
    metadata, whichever shape the outcome had. *)
Theorem records_carry_format (self : AnyparserLoader) (backend : Backend)
    (w w' : World) (docs : list Document) :
  run_until_complete backend (aload self) w = (w', inr docs) ->
  Forall (fun d => metadata d !! "format" = Some (VStr (format self))) docs.
Proof.
  intros Hrun.
  destruct (run_aload_inr self backend w w' docs Hrun) as (result & _ & Hn).
  destruct (format_is_text self) eqn:Hfmt.
  - unfold normalize in Hn. rewrite Hfmt in Hn.
    destruct result; inversion Hn; subst. by constructor.
  - destruct result as [s|items|cls];
      try (unfold normalize in Hn; rewrite Hfmt in Hn; discriminate).
    rewrite (normalize_list self items Hfmt) in Hn. inversion Hn; subst.
    apply Forall_concat, Forall_map, Forall_true. apply create_format.
Qed.

(** X4. Under format json the records of a concatenated list are the
    records of its parts, one after the other. *)
Theorem aload_json_app (self : AnyparserLoader) (w : World)
    (a b : list AnyparserResult) (da db : list Document) :
  format_is_text self = false ->
  snd (run_until_complete (returning (OList a)) (aload self) w) = inr da ->
  snd (run_until_complete (returning (OList b)) (aload self) w) = inr db ->
  snd (run_until_complete (returning (OList (a ++ b))) (aload self) w)
  = inr (da ++ db).
Proof.
  intros Hfmt Ha Hb.
  rewrite (run_aload_return self (returning (OList a)) w (OList a) _
             eq_refl (normalize_list self a Hfmt)) in Ha.
  rewrite (run_aload_return self (returning (OList b)) w (OList b) _
             eq_refl (normalize_list self b Hfmt)) in Hb.
  rewrite (run_aload_return self (returning (OList (a ++ b))) w
             (OList (a ++ b)) _ eq_refl (normalize_list self (a ++ b) Hfmt)).
  simpl in *. inversion Ha; inversion Hb; subst.
  by rewrite map_app, concat_app.
Qed.

Lemma concat_create_nil (self : AnyparserLoader)
    (items : list AnyparserResult) :
  concat (map (_create_document_from_result self) items) = []
  <-> Forall (fun item => record_count item = 0%nat) items.
Proof.
  induction items as [|item items IH]; simpl.
  - split; [constructor|done].
  - rewrite Forall_cons, <- IH, <- (length_create self item).
    split.
    + intros H. apply app_eq_nil in H as [H1 H2]. by rewrite H1.
    + intros [H1 H2]. apply nil_length_inv in H1. by rewrite H1, H2.
Qed.

(** X5. Under format json a call returns no record exactly when every item
    of the list is a PDF or crawl result without pages (an empty list
    included); that is a normal return, not an error. *)
Theorem aload_json_no_records (self : AnyparserLoader) (w : World)
    (items : list AnyparserResult) :
  format_is_text self = false ->
  snd (run_until_complete (returning (OList items)) (aload self) w) = inr []
  <-> Forall (fun item => record_count item = 0%nat) items.
Proof.
  intros Hfmt.
  rewrite (run_aload_return self (returning (OList items)) w (OList items) _
             eq_refl (normalize_list self items Hfmt)).
  simpl. rewrite <- concat_create_nil.
  split; [intros H; by inversion H|by intros ->].
Qed.

(** ** Beyond the claims: the metadata of a record *)

(** X6. The metadata keys are fixed by the kind of the item: six keys for a
    basic result, the same six with page_number, total_pages and images for
    a PDF page, and twelve keys without rid, checksum and original_filename
    for a crawled page. *)
Theorem metadata_keys (self : AnyparserLoader) :
  (forall res : AnyparserResultBase,
     Forall (fun d => dom (metadata d)
               = (list_to_set ["source"; "format"; "rid"; "checksum";
                               "total_characters"; "original_filename"]
                  : gset string))
       (_create_document_from_result self (BaseResult res))) /\
  (forall (res : AnyparserResultBase) (pages : list AnyparserPdfPage),
     Forall (fun d => dom (metadata d)
               = (list_to_set ["source"; "format"; "page_number";
                               "total_pages"; "rid"; "checksum";
                               "total_characters"; "original_filename";
                               "images"]
                  : gset string))
       (_create_document_from_result self (PdfResult res pages))) /\
  (forall (start_url : string) (pages : list AnyparserUrl),
     Forall (fun d => dom (metadata d)
               = (list_to_set ["source"; "format"; "page_number";
                               "total_pages"; "url"; "title";
                               "status_message"; "status_code";
                               "politeness_delay"; "total_characters";
                               "crawled_at"; "images"]
                  : gset string))
       (_create_document_from_result self (CrawlResult start_url pages))).
Proof.
  split; [|split].
  - intros res. rewrite create_from_base. constructor; [|constructor].
    unfold base_document, dict. cbn [metadata].
    by rewrite dom_list_to_map_L.
  - intros res pages. rewrite create_from_pdf.
    apply Forall_map, Forall_true. intros p.
    unfold pdf_page_document, dict. cbn [metadata].
    by rewrite dom_list_to_map_L.
  - intros start_url pages. rewrite create_from_crawl.
    apply Forall_map, Forall_true. intros [i u].
    unfold _create_document_from_url, dict. cbn [metadata].
    by rewrite dom_list_to_map_L.
Qed.

(** X7. The records of a PDF result all carry the rid, checksum,
    total_characters and original_filename of the result itself, the same on
    every page; the records of a crawl result carry each page's own title,
    status, delay, character count and crawl time. *)
Theorem attribute_provenance (self : AnyparserLoader) :
  (forall (res : AnyparserResultBase) (pages : list AnyparserPdfPage),
     Forall (fun d =>
               metadata d !! "rid" = Some (rid res) /\
               metadata d !! "checksum" = Some (checksum res) /\
               metadata d !! "total_characters" = Some (total_characters res) /\
               metadata d !! "original_filename"
               = Some (original_filename res))
       (_create_document_from_result self (PdfResult res pages))) /\
  (forall (start_url : string) (pages : list AnyparserUrl),
     map (fun d => (metadata d !! "title", metadata d !! "status_message",
                    metadata d !! "status_code",
                    metadata d !! "politeness_delay",
                    metadata d !! "total_characters",
                    metadata d !! "crawled_at"))
       (_create_document_from_result self (CrawlResult start_url pages))
     = map (fun u => (Some (title u), Some (status_message u),
                      Some (status_code u), Some (politeness_delay u),
                      Some (url_total_characters u), Some (crawled_at u)))
         pages).
Proof.
  split.
  - intros res pages. rewrite create_from_pdf.
    apply Forall_map, Forall_true. intros p. by repeat split.
  - intros start_url pages. rewrite create_from_crawl, map_map.
    rewrite <- (map_enumerate_snd
                  (fun u => (Some (title u), Some (status_message u),
                             Some (status_code u), Some (politeness_delay u),
                             Some (url_total_characters u),
                             Some (crawled_at u)))
                  pages 1).
    apply map_ext. intros [i u]. reflexivity.
Qed.

(** X8. The images entry of a page record is always a list, never [None]:
    for a crawled page one dict with the keys name, index and page per
    image, for a PDF page the page's own images; a page whose images are
    [None] or empty gets the empty list. *)
Theorem images_metadata (self : AnyparserLoader) :
  (forall (start_url : string) (pages : list AnyparserUrl),
     map (fun d => metadata d !! "images")
       (_create_document_from_result self (CrawlResult start_url pages))
     = map (fun u =>
              Some (VList
                      (map (fun img => VDict [("name", display_name img);
                                              ("index", image_index img);
                                              ("page", page img)])
                         (default [] (url_images u)))))
         pages) /\
  (forall (res : AnyparserResultBase) (pages : list AnyparserPdfPage),
     map (fun d => metadata d !! "images")
       (_create_document_from_result self (PdfResult res pages))
     = map (fun p => Some (VList (default [] (page_images p)))) pages).
Proof.
  split.
  - intros start_url pages. rewrite create_from_crawl, map_map.
    rewrite <- (map_enumerate_snd
                  (fun u =>
                     Some (VList
                             (map (fun img =>
                                     VDict [("name", display_name img);
                                            ("index", image_index img);
                                            ("page", page img)])
                                (default [] (url_images u)))))
                  pages 1).
    apply map_ext. intros [i u].
    destruct u as [? ? ? ? ? ? ? ? ? [[|img imgs]|]]; reflexivity.
  - intros res pages. rewrite create_from_pdf, map_map.
    apply map_ext. intros p.
    destruct p as [? ? ? [[|img imgs]|]]; reflexivity.
Qed.

(** X9. The records of a crawl result depend on the loader only through its
    format: neither the loader's target nor its options nor the crawl's
    start URL shows in them. *)
Theorem crawl_records_ignore_target (self1 self2 : AnyparserLoader)
    (start1 start2 : string) (pages : list AnyparserUrl) :
  format self1 = format self2 ->
  _create_document_from_result self1 (CrawlResult start1 pages)
  = _create_document_from_result self2 (CrawlResult start2 pages).
Proof.
  intros Hfmt. rewrite !create_from_crawl.
  apply map_ext. intros [i u].
  unfold _create_document_from_url. by rewrite Hfmt.
Qed.

(** X10. The records of a PDF result do not encode the position of a page:
    reordering the pages reorders the records and changes nothing else. *)
Theorem pdf_records_permute (self : AnyparserLoader)
    (res : AnyparserResultBase) (pages pages' : list AnyparserPdfPage) :
  Permutation pages pages' ->
  Permutation (_create_document_from_result self (PdfResult res pages))
    (_create_document_from_result self (PdfResult res pages')).
Proof.
  intros Hperm. rewrite !create_from_pdf.
  rewrite <- (Permutation_length Hperm).
  by apply Permutation_map.
Qed.

(** ** Beyond the claims: construction *)

(** X11. A successful construction stores format and model as given and
    forwards every keyword argument unchanged to the options, the url also
    when the model is not crawler; it builds one parser from these options
    and makes no [parse] call. *)
Theorem init_forwards_arguments (kw : Kw.t) (w w' : World)
    (self : AnyparserLoader) :
  init kw w = (w', inr self) ->
  format self = Kw.format kw /\
  model self = Kw.model kw /\
  opt_api_key (options self) = Kw.anyparser_api_key kw /\
  opt_api_url (options self) = Kw.anyparser_api_url kw /\
  opt_format (options self) = Kw.format kw /\
  opt_model (options self) = Kw.model kw /\
  opt_encoding (options self) = Kw.encoding kw /\
  opt_image (options self) = Kw.image kw /\
  opt_table (options self) = Kw.table kw /\
  opt_ocr_language (options self) = Kw.ocr_language kw /\
  opt_ocr_preset (options self) = Kw.ocr_preset kw /\
  opt_url (options self) = Kw.url kw /\
  opt_max_depth (options self) = Kw.max_depth kw /\
  opt_max_executions (options self) = Kw.max_executions kw /\
  opt_strategy (options self) = Kw.strategy kw /\
  opt_traversal_scope (options self) = Kw.traversal_scope kw /\
  w' = w ++ [EvAnyparser (options self)].
Proof.
  intros Hinit.
  destruct (init_success kw w w' self Hinit) as (_ & Hf & Hm & Ho & Hw).
  rewrite Ho, Hf, Hm, Hw. by repeat split.
Qed.

(** ** Beyond the claims: loading a folder *)

Lemma parse_calls_app (evs1 evs2 : list Event) :
  parse_calls (evs1 ++ evs2) = (parse_calls evs1 + parse_calls evs2)%nat.
Proof. unfold parse_calls. by rewrite List.filter_app, length_app. Qed.

Lemma init_folder (api_key api_url : option string) (path : string)
    (w : World) :
  init (folder_kw api_key api_url path) w
  = (w ++ [EvAnyparser (options_of (folder_kw api_key api_url path))],
     inr (folder_loader api_key api_url path)).
Proof. reflexivity. Qed.

(** One iteration whose [parse] returned a string. *)
Lemma load_folder_step (backend : Backend) (api_key api_url : option string)
    (path : string) (rest : list string) (acc : list Document) (w : World)
    (s : string) :
  backend (w ++ [EvAnyparser (options_of (folder_kw api_key api_url path))])
    (options_of (folder_kw api_key api_url path)) (Some path)
  = inr (OStr s) ->
  load_folder_loop backend api_key api_url (path :: rest) acc w
  = load_folder_loop backend api_key api_url rest
      (acc ++ [ {| page_content := s;
                   metadata := {[ "source" := VStr path;
                                  "format" := VStr "markdown" ]} |} ])
      (w ++ [EvAnyparser (options_of (folder_kw api_key api_url path));
             EvParse (options_of (folder_kw api_key api_url path))
               (Some path)]).
Proof.
  intros Hb. cbn [load_folder_loop]. rewrite init_folder.
  rewrite (run_aload_return (folder_loader api_key api_url path) backend _
             (OStr s) _ Hb eq_refl).
  by rewrite <- app_assoc.
Qed.

Lemma load_folder_loop_strings (backend : Backend)
    (api_key api_url : option string) (files : list string) :
  (forall w opts target, exists s, backend w opts target = inr (OStr s)) ->
  forall (acc : list Document) (w : World),
  exists docs : list Document,
    snd (load_folder_loop backend api_key api_url files acc w)
    = inr (acc ++ docs) /\
    map (fun d => metadata d !! "source") docs
    = map (fun path => Some (VStr path)) files.
Proof.
  intros Hstr. induction files as [|path rest IH]; intros acc w.
  - exists []. by rewrite app_nil_r.
  - destruct (Hstr (w ++ [EvAnyparser
                            (options_of (folder_kw api_key api_url path))])
                (options_of (folder_kw api_key api_url path)) (Some path))
      as [s Hb].
    rewrite (load_folder_step backend api_key api_url path rest acc w s Hb).
    match goal with
    | |- context [load_folder_loop _ _ _ rest ?acc' ?w'] =>
        destruct (IH acc' w') as (docs & Hrun & Hsrc)
    end.
    eexists (_ :: docs). split.
    + rewrite Hrun. by rewrite <- app_assoc.
    + simpl. by rewrite Hsrc.
Qed.

(** X12. When the backend answers every [parse] with a string, loading a
    folder returns one record per kept file, at most five, in the order of
    the listing, each with its file's path as source. *)
Theorem load_folder_one_record_per_file (backend : Backend)
    (api_key api_url : option string) (listing : list string) (w : World) :
  (forall w opts target, exists s, backend w opts target = inr (OStr s)) ->
  exists docs : list Document,
    snd (load_folder_main backend api_key api_url listing w) = inr docs /\
    map (fun d => metadata d !! "source") docs
    = map (fun path => Some (VStr path)) (take 5 listing) /\
    length docs = Nat.min 5 (length listing).
Proof.
  intros Hstr. unfold load_folder_main.
  destruct (load_folder_loop_strings backend api_key api_url (take 5 listing)
              Hstr [] w) as (docs & Hrun & Hsrc).
  exists docs. split; [exact Hrun|split; [exact Hsrc|]].
  apply (f_equal length) in Hsrc.
  rewrite !length_map, length_take in Hsrc. exact Hsrc.
Qed.

(** One iteration whose [parse] raised. *)
Lemma load_folder_loop_head_failure (backend : Backend)
    (api_key api_url : option string) (path : string) (rest : list string)
    (acc : list Document) (w : World) (e : PyExc) :
  backend (w ++ [EvAnyparser (options_of (folder_kw api_key api_url path))])
    (options_of (folder_kw api_key api_url path)) (Some path)
  = inl e ->
  load_folder_loop backend api_key api_url (path :: rest) acc w
  = (w ++ folder_events api_key api_url path,
     inl (ValueError ("Error parsing document with Anyparser: " +:+ str e))).
Proof.
  intros Hb. cbn [load_folder_loop]. rewrite init_folder.
  rewrite (run_aload_failure (folder_loader api_key api_url path) backend _
             e Hb).
  unfold folder_events. by rewrite <- app_assoc.
Qed.

(** The loop, entered anywhere, with files that load followed by one that
    does not. *)
Lemma load_folder_loop_fails (backend : Backend)
    (api_key api_url : option string) (pre : list string) (path : string)
    (rest : list string) (e : PyExc) :
  Forall (fun p => forall w' : World, exists s : string,
            backend w' (options_of (folder_kw api_key api_url p)) (Some p)
            = inr (OStr s)) pre ->
  (forall w' : World,
     backend w' (options_of (folder_kw api_key api_url path)) (Some path)
     = inl e) ->
  forall (acc : list Document) (w : World),
    load_folder_loop backend api_key api_url (pre ++ path :: rest) acc w
    = (w ++ flat_map (folder_events api_key api_url) (pre ++ [path]),
       inl (ValueError ("Error parsing document with Anyparser: " +:+ str e))).
Proof.
  intros Hpre Hfail. induction Hpre as [|p pre Hp Hpre IH]; intros acc w.
  - cbn [app flat_map]. rewrite app_nil_r.
    by apply load_folder_loop_head_failure.
  - destruct (Hp (w ++ [EvAnyparser
                          (options_of (folder_kw api_key api_url p))]))
      as [s Hs].
    change ((p :: pre) ++ path :: rest) with (p :: (pre ++ path :: rest)).
    rewrite (load_folder_step backend api_key api_url p _ acc w s Hs).
    rewrite IH. cbn [app flat_map].
    rewrite <- app_assoc. reflexivity.
Qed.

(** X13. When the listing has fewer than five files that load and then one
    on which [parse] fails, [main] fails with the loader's error for that
    file: the records collected so far are not returned, and no parser is
    built and no [parse] call is made for the files after it. *)
Theorem load_folder_stops_at_failure (backend : Backend)
    (api_key api_url : option string) (pre : list string) (path : string)
    (post : list string) (w : World) (e : PyExc) :
  (length pre < 5)%nat ->
  Forall (fun p => forall w' : World, exists s : string,
            backend w' (options_of (folder_kw api_key api_url p)) (Some p)
            = inr (OStr s)) pre ->
  (forall w' : World,
     backend w' (options_of (folder_kw api_key api_url path)) (Some path)
     = inl e) ->
  load_folder_main backend api_key api_url (pre ++ path :: post) w
  = (w ++ flat_map (folder_events api_key api_url) (pre ++ [path]),
     inl (ValueError ("Error parsing document with Anyparser: " +:+ str e))).
Proof.
  intros Hlen Hpre Hfail. unfold load_folder_main.
  rewrite take_app, (take_ge pre 5) by lia.
  destruct (5 - length pre)%nat as [|m] eqn:Hm; [lia|].
  cbn [take]. by apply load_folder_loop_fails.
Qed.

Lemma load_folder_loop_calls (backend : Backend)
    (api_key api_url : option string) (files : list string) :
  forall (acc : list Document) (w : World),
  exists evs : list Event,
    fst (load_folder_loop backend api_key api_url files acc w) = w ++ evs /\
    (parse_calls evs <= length files)%nat.
Proof.
  induction files as [|path rest IH]; intros acc w.
  - exists []. split; [by rewrite app_nil_r|unfold parse_calls; simpl; lia].
  - cbn [load_folder_loop]. rewrite init_folder.
    pose proof (aload_asks_once (folder_loader api_key api_url path) backend
                  (w ++ [EvAnyparser
                           (options_of (folder_kw api_key api_url path))]))
      as Hw.
    destruct (run_until_complete backend
                (aload (folder_loader api_key api_url path)) _)
      as [w2 [e|documents]]; simpl in Hw; subst w2.
    + eexists [_; _]. split; [by rewrite <- app_assoc|].
      simpl. unfold parse_calls. simpl. lia.
    + destruct (IH (acc ++ documents)
                  (w ++ [EvAnyparser
                           (options_of (folder_kw api_key api_url path))]
                     ++ [parse_event (folder_loader api_key api_url path)]))
        as (evs & Hrun & Hle).
      rewrite app_assoc in Hrun.
      exists ([EvAnyparser (options_of (folder_kw api_key api_url path));
               parse_event (folder_loader api_key api_url path)] ++ evs).
      split.
      * rewrite Hrun. by rewrite <- !app_assoc.
      * rewrite parse_calls_app. simpl.
        change (parse_calls [EvAnyparser _; parse_event _]) with 1%nat. lia.
Qed.

(** X14. Loading a folder makes at most five [parse] calls, and at most one
    per listed file, however long the listing is and whatever the backend
    answers. *)
Theorem load_folder_at_most_five (backend : Backend)
    (api_key api_url : option string) (listing : list string) (w : World) :
  exists evs : list Event,
    fst (load_folder_main backend api_key api_url listing w) = w ++ evs /\
    (parse_calls evs <= 5)%nat /\
    (parse_calls evs <= length listing)%nat.
Proof.
  unfold load_folder_main.
  destruct (load_folder_loop_calls backend api_key api_url (take 5 listing)
              [] w) as (evs & Hrun & Hle).
  exists evs. rewrite length_take in Hle.
  split; [exact Hrun|split; lia].
Qed.

(** ** The further properties at concrete inputs *)

Lemma aload_other_format_witness :
  run_until_complete (returning (OStr "plain text"))
    (aload (file_loader "Markdown")) []
  = ([parse_event (file_loader "Markdown")],
     inl (ValueError
            "Error parsing document with Anyparser: Expected list for JSON format, got: <class 'str'>")).
Proof.
  apply (aload_other_format (file_loader "Markdown")
           (returning (OStr "plain text")) [] (OStr "plain text"));
    [discriminate|discriminate|reflexivity].
Defined.

Lemma records_carry_format_witness :
  Forall (fun d => metadata d !! "format" = Some (VStr "json"))
    (concat (map (_create_document_from_result (file_loader "json"))
               mixed_items)).
Proof.
  apply (records_carry_format (file_loader "json")
           (returning (OList mixed_items)) []
           [parse_event (file_loader "json")]).
  reflexivity.
Defined.

Lemma aload_json_app_witness :
  snd (run_until_complete
         (returning (OList ([BaseResult test_base] ++ mixed_items)))
         (aload (file_loader "json")) [])
  = inr ([base_document (file_loader "json") test_base]
         ++ concat (map (_create_document_from_result (file_loader "json"))
                      mixed_items)).
Proof.
  apply (aload_json_app (file_loader "json") [] [BaseResult test_base]
           mixed_items); reflexivity.
Defined.

Lemma aload_json_no_records_witness :
  snd (run_until_complete (returning (OList pageless_items))
         (aload (file_loader "json")) []) = inr []
  <-> Forall (fun item => record_count item = 0%nat) pageless_items.
Proof.
  apply (aload_json_no_records (file_loader "json") [] pageless_items).
  reflexivity.
Defined.

Lemma crawl_records_ignore_target_witness :
  _create_document_from_result crawl_loader
    (CrawlResult "http://example.com"
       [test_url "http://example.com/page1" (Some "page 1 content") None])
  = _create_document_from_result (file_loader "json")
      (CrawlResult "http://elsewhere.example"
         [test_url "http://example.com/page1" (Some "page 1 content") None]).
Proof.
  apply (crawl_records_ignore_target crawl_loader (file_loader "json")).
  reflexivity.
Defined.

Lemma pdf_records_permute_witness :
  Permutation
    (_create_document_from_result (file_loader "json")
       (PdfResult test_base [test_page 1 (Some "one"); test_page 2 None]))
    (_create_document_from_result (file_loader "json")
       (PdfResult test_base [test_page 2 None; test_page 1 (Some "one")])).
Proof.
  apply (pdf_records_permute (file_loader "json") test_base
           [test_page 1 (Some "one"); test_page 2 None]
           [test_page 2 None; test_page 1 (Some "one")]).
  apply perm_swap.
Defined.

Lemma init_forwards_arguments_witness :
  opt_url (options crawl_loader) = Some "http://example.com" /\
  opt_model (options crawl_loader) = "crawler" /\
  format crawl_loader = "json".
Proof.
  pose proof (init_forwards_arguments
                (kw_url "http://example.com" "crawler" "json") []
                [EvAnyparser
                   (options_of (kw_url "http://example.com" "crawler" "json"))]
                crawl_loader eq_refl) as H.
  destruct H as (Hf & _ & _ & _ & _ & Hm & _ & _ & _ & _ & _ & Hu & _).
  exact (conj Hu (conj Hm Hf)).
Defined.

Lemma load_folder_one_record_per_file_witness :
  exists docs : list Document,
    snd (load_folder_main echo_backend None None
           ["a.pdf"; "b.pdf"; "c.pdf"; "d.pdf"; "e.pdf"; "f.pdf"] [])
    = inr docs /\
    map (fun d => metadata d !! "source") docs
    = [Some (VStr "a.pdf"); Some (VStr "b.pdf"); Some (VStr "c.pdf");
       Some (VStr "d.pdf"); Some (VStr "e.pdf")] /\
    length docs = 5%nat.
Proof.
  apply (load_folder_one_record_per_file echo_backend None None
           ["a.pdf"; "b.pdf"; "c.pdf"; "d.pdf"; "e.pdf"; "f.pdf"] []).
  intros w opts target. eexists. reflexivity.
Defined.

Lemma load_folder_stops_at_failure_witness :
  load_folder_main (failing_on "c.pdf") None None
    ["a.pdf"; "b.pdf"; "c.pdf"; "d.pdf"] []
  = (flat_map (folder_events None None) ["a.pdf"; "b.pdf"; "c.pdf"],
     inl (ValueError "Error parsing document with Anyparser: unreadable")).
Proof.
  apply (load_folder_stops_at_failure (failing_on "c.pdf") None None
           ["a.pdf"; "b.pdf"] "c.pdf" ["d.pdf"] []
           (Exception "IOError" "unreadable")).
  - simpl. lia.
  - repeat constructor; intros w'; eexists; reflexivity.
  - intros w'. reflexivity.
Defined.
